(** * Swift handoff check: placement reconciliation

    A shallow embedding of
    [monasca_agent/collector/checks_d/swift_handoffs.py]: the helper
    [get_ring_and_datadir] and the method [SwiftHandoffs.check].

    The check inverts a Swift ring (replica -> partition -> device id) into
    a per-device set of primary partitions, lists the partition directories
    found on disk under every device directory, classifies each of them as
    primary or handoff, and reports the counts as gauges. *)

From Stdlib Require Import Ascii String List Arith Lia Bool.
From stdpp Require Import base option list gmap strings fin_maps fin_sets.

Local Open Scope string_scope.
Local Open Scope list_scope.

(** ** Python values used by the check *)

(** *** Byte strings

    Directory entries, paths and option values are Python 2 byte strings,
    modelled as [string]. *)

Module Py.

Definition is_digit (c : ascii) : bool :=
  let n := nat_of_ascii c in ((48 <=? n) && (n <=? 57))%nat.

Definition is_upper (c : ascii) : bool :=
  let n := nat_of_ascii c in ((65 <=? n) && (n <=? 90))%nat.

Fixpoint all_digits (s : string) : bool :=
  match s with
  | EmptyString => true
  | String c s' => is_digit c && all_digits s'
  end.

(** [str.isdigit()]: at least one character, all of them decimal digits. *)
Definition isdigit (s : string) : bool :=
  match s with
  | EmptyString => false
  | String _ _ => all_digits s
  end.

Fixpoint int_acc (acc : nat) (s : string) : nat :=
  match s with
  | EmptyString => acc
  | String c s' => int_acc (10 * acc + (nat_of_ascii c - 48))%nat s'
  end.

(** [int(s)] for a string of decimal digits; the check calls it only
    behind the [isdigit] guard. *)
Definition int (s : string) : nat := int_acc 0 s.

Definition lower_ascii (c : ascii) : ascii :=
  if is_upper c then ascii_of_nat (nat_of_ascii c + 32)%nat else c.

(** [str.lower()] *)
Fixpoint lower (s : string) : string :=
  match s with
  | EmptyString => EmptyString
  | String c s' => String (lower_ascii c) (lower s')
  end.

Definition slash : ascii := "/"%char.
Definition dot : ascii := "."%char.

Definition startswith_slash (s : string) : bool :=
  match s with
  | String c _ => Ascii.eqb c slash
  | EmptyString => false
  end.

Fixpoint endswith_slash (s : string) : bool :=
  match s with
  | EmptyString => false
  | String c EmptyString => Ascii.eqb c slash
  | String _ s' => endswith_slash s'
  end.

(** One step of [posixpath.join]. *)
Definition join2 (path b : string) : string :=
  if startswith_slash b then b
  else if String.eqb path "" || endswith_slash path then String.append path b
  else String.append path (String.append "/" b).

(** [os.path.join(a, b, c)] *)
Definition join3 (a b c : string) : string := join2 (join2 a b) c.

Fixpoint contains_slash (s : string) : bool :=
  match s with
  | EmptyString => false
  | String c s' => Ascii.eqb c slash || contains_slash s'
  end.

(** [os.path.basename(p)]: what follows the last slash. *)
Fixpoint basename (p : string) : string :=
  match p with
  | EmptyString => EmptyString
  | String c p' =>
      if contains_slash p then basename p' else p
  end.

(** [s.split('.')[0]]: what precedes the first dot. *)
Fixpoint before_dot (s : string) : string :=
  match s with
  | EmptyString => EmptyString
  | String c s' =>
      if Ascii.eqb c dot then EmptyString else String c (before_dot s')
  end.

End Py.

(** *** Exceptions *)

Inductive exn : Type :=
| OSError (errno : nat)
| IndexError
| TypeError
| PolicyError
| RingError.

Definition ENOENT : nat := 2.
Definition EACCES : nat := 13.
Definition EIO : nat := 5.

(** *** [collections.defaultdict]

    A [defaultdict] is a finite map with a default: reading a missing key
    yields the default and stores it under the key. *)

Section defaultdict.
Context {V : Type} (dflt : V).

Definition dd_value (k : string) (m : gmap string V) : V :=
  default dflt (m !! k).

Definition dd_touch (k : string) (m : gmap string V) : gmap string V :=
  match m !! k with
  | Some _ => m
  | None => <[k := dflt]> m
  end.

(** [m[k]]: the value read and the map afterwards. *)
Definition dd_get (k : string) (m : gmap string V) : V * gmap string V :=
  (dd_value k m, dd_touch k m).

End defaultdict.

(** ** The ring *)

Record Dev : Type := { device : string }.

(** [ring._replica2part2dev_id] is a list of arrays of unsigned device ids,
    one array per replica; [ring.devs] is a list of device dictionaries in
    which removed devices leave [None]. *)
Record Ring : Type := {
  _replica2part2dev_id : list (list nat);
  devs : list (option Dev)
}.

(** ** Building the primary index

<<
    dev2parts = defaultdict(set)
    for replica, part2dev in enumerate(ring._replica2part2dev_id):
        for part, device_id in enumerate(part2dev):
            dev2parts[ring.devs[device_id]['device']].add(part)
>> *)

(** [dev2parts[name].add(part)] *)
Definition dd_add (name : string) (part : nat)
    (dev2parts : gmap string (gset nat)) : gmap string (gset nat) :=
  let '(s, m) := dd_get ∅ name dev2parts in
  <[name := {[part]} ∪ s]> m.

(** [ring.devs[device_id]['device']] *)
Definition dev_name (ds : list (option Dev)) (device_id : nat) : exn + string :=
  match ds !! device_id with
  | None => inl IndexError
  | Some None => inl TypeError
  | Some (Some d) => inr (device d)
  end.

Fixpoint index_parts (ds : list (option Dev)) (part : nat)
    (part2dev : list nat) (dev2parts : gmap string (gset nat))
    : exn + gmap string (gset nat) :=
  match part2dev with
  | [] => inr dev2parts
  | device_id :: rest =>
      match dev_name ds device_id with
      | inl e => inl e
      | inr name => index_parts ds (S part) rest (dd_add name part dev2parts)
      end
  end.

Fixpoint index_replicas (ds : list (option Dev))
    (replica2part2dev : list (list nat))
    (dev2parts : gmap string (gset nat)) : exn + gmap string (gset nat) :=
  match replica2part2dev with
  | [] => inr dev2parts
  | part2dev :: rest =>
      match index_parts ds 0 part2dev dev2parts with
      | inl e => inl e
      | inr m => index_replicas ds rest m
      end
  end.

Definition build_dev2parts (ring : Ring) : exn + gmap string (gset nat) :=
  index_replicas (devs ring) (_replica2part2dev_id ring) ∅.

(** ** The environment of one invocation *)

(** The file system and the ring files as the check sees them: a snapshot
    answering [os.path.exists], [os.path.isdir], [os.path.isfile],
    [os.listdir] (an [OSError] with its errno, or the entries) and
    [Ring(path)]. *)
Record World : Type := {
  os_path_exists : string -> bool;
  os_path_isdir : string -> bool;
  os_path_isfile : string -> bool;
  os_listdir : string -> nat + list string;
  ring_file : string -> exn + Ring
}.

(** What an invocation does to the outside, in order. *)
Inductive event : Type :=
| LogError (msg : string)
| RingLoad (path : string)
| ListDir (path : string)
| Gauge (name : string) (value : nat) (dimensions : gmap string string).

Definition is_gauge (ev : event) : bool :=
  match ev with Gauge _ _ _ => true | _ => false end.


Definition is_io (ev : event) : bool :=
  match ev with RingLoad _ | ListDir _ => true | _ => false end.

(** A computation yields the events it performed and either the exception
    that ended it or its value. *)
Definition M (A : Type) : Type := list event * (exn + A).

#[export] Instance M_ret : MRet M := fun A a => ([], inr a).

#[export] Instance M_bind : MBind M := fun A B f m =>
  match m with
  | (t, inl e) => (t, inl e)
  | (t, inr a) => let '(t', r) := f a in (t ++ t', r)
  end.

Definition raise {A : Type} (e : exn) : M A := ([], inl e).
Definition lift {A : Type} (r : exn + A) : M A := ([], r).
Definition emit (ev : event) : M unit := ([ev], inr tt).

Definition trace {A : Type} (m : M A) : list event := fst m.
Definition outcome {A : Type} (m : M A) : exn + A := snd m.
Definition gauges {A : Type} (m : M A) : list event :=
  filter (fun ev => is_gauge ev = true) (trace m).

(** ** Scanning and classifying

<<
    primary_count = defaultdict(int)
    handoffs = defaultdict(set)
    device_dirs = os.listdir(device_root)
    for device_dir in device_dirs:
        parts_dir = os.path.join(device_root, device_dir, datadir)
        try:
            parts = os.listdir(parts_dir)
        except OSError as e:
            if e.errno == errno.ENOENT:
                continue
            else:
                raise
        for part in parts:
            if not part.isdigit():
                continue
            part = int(part)
            if part in dev2parts[device_dir]:
                primary_count[device_dir] += 1
            else:
                handoffs[device_dir].add(part)
>> *)

Record scan_state : Type := {
  dev2parts : gmap string (gset nat);
  primary_count : gmap string nat;
  handoffs : gmap string (gset nat)
}.

(** One iteration of [for part in parts]. *)
Definition classify_part (device_dir : string) (st : scan_state)
    (part : string) : scan_state :=
  if negb (Py.isdigit part) then st
  else
    let part := Py.int part in
    let '(primaries, d2p) := dd_get ∅ device_dir (dev2parts st) in
    if bool_decide (part ∈ primaries) then
      {| dev2parts := d2p;
         primary_count :=
           <[device_dir := dd_value 0 device_dir (primary_count st) + 1]>
             (primary_count st);
         handoffs := handoffs st |}
    else
      {| dev2parts := d2p;
         primary_count := primary_count st;
         handoffs := dd_add device_dir part (handoffs st) |}.

(** One iteration of [for device_dir in device_dirs]. *)
Definition scan_device (w : World) (device_root datadir : string)
    (st : scan_state) (device_dir : string) : M scan_state :=
  let parts_dir := Py.join3 device_root device_dir datadir in
  emit (ListDir parts_dir);;
  match os_listdir w parts_dir with
  | inl errno =>
      if Nat.eqb errno ENOENT then mret st else raise (OSError errno)
  | inr parts => mret (foldl (classify_part device_dir) st parts)
  end.

Fixpoint scan_devices (w : World) (device_root datadir : string)
    (device_dirs : list string) (st : scan_state) : M scan_state :=
  match device_dirs with
  | [] => mret st
  | device_dir :: rest =>
      st' ← scan_device w device_root datadir st device_dir;
      scan_devices w device_root datadir rest st'
  end.

(** ** Reporting

<<
    if granularity == 'server':
        self.gauge('swift_handoffs.primary',
                   sum(primary_count.values()), dimensions.copy())
        self.gauge('swift_handoffs.handoffs',
                   sum(map(len, handoffs.values())), dimensions)
    else:
        for device in device_dirs:
            tmp_dimensions = dimensions.copy()
            tmp_dimensions['device'] = device
            self.gauge('swift_handoffs.primary',
                       primary_count[device], tmp_dimensions)
            self.gauge('swift_handoffs.handoffs',
                       len(handoffs[device]), tmp_dimensions)
>> *)

(** [sum(f(v) for v in m.values())] *)
Definition sum_values {V : Type} (f : V -> nat) (m : gmap string V) : nat :=
  map_fold (fun _ v acc => f v + acc) 0 m.

Definition report_server (dimensions : gmap string string)
    (st : scan_state) : M unit :=
  emit (Gauge "swift_handoffs.primary"
          (sum_values id (primary_count st)) dimensions);;
  emit (Gauge "swift_handoffs.handoffs"
          (sum_values size (handoffs st)) dimensions).

Fixpoint report_devices (dimensions : gmap string string)
    (device_dirs : list string)
    (pc : gmap string nat) (ho : gmap string (gset nat)) : M unit :=
  match device_dirs with
  | [] => mret tt
  | dev :: rest =>
      let tmp_dimensions := <["device" := dev]> dimensions in
      let '(n, pc') := dd_get 0 dev pc in
      emit (Gauge "swift_handoffs.primary" n tmp_dimensions);;
      let '(s, ho') := dd_get ∅ dev ho in
      emit (Gauge "swift_handoffs.handoffs" (size s) tmp_dimensions);;
      report_devices dimensions rest pc' ho'
  end.

(** The state the scan starts from: the index just built and two empty
    dictionaries. *)
Definition init_state (idx : gmap string (gset nat)) : scan_state :=
  {| dev2parts := idx; primary_count := ∅; handoffs := ∅ |}.

(** ** The check *)

(** The instance is the dictionary of options of one configured check; the
    options the check reads are strings. [instance.get(key, dflt)]: *)
Definition dict_get (instance : gmap string string) (key dflt : string)
    : string :=
  default dflt (instance !! key).

(** [device_root = instance.get('devices', '/srv/node')] *)
Definition device_root_of (instance : gmap string string) : string :=
  dict_get instance "devices" "/srv/node".

(** [ring_path = instance.get('ring', '/etc/swift/object.ring.gz')] *)
Definition ring_path_of (instance : gmap string string) : string :=
  dict_get instance "ring" "/etc/swift/object.ring.gz".

(** [granularity = instance.get('granularity', 'server').lower()] *)
Definition granularity_of (instance : gmap string string) : string :=
  Py.lower (dict_get instance "granularity" "server").

(** [ring_name = os.path.basename(path).split('.')[0]] *)
Definition ring_name_of (path : string) : string :=
  Py.before_dot (Py.basename path).

Definition log_error (msg : string) : M unit := emit (LogError msg).

(** The three configuration tests of the check. *)
Definition devices_ok (w : World) (instance : gmap string string) : bool :=
  os_path_exists w (device_root_of instance)
  && os_path_isdir w (device_root_of instance).

Definition ring_ok (w : World) (instance : gmap string string) : bool :=
  os_path_exists w (ring_path_of instance)
  && os_path_isfile w (ring_path_of instance).

Definition granularity_ok (instance : gmap string string) : bool :=
  String.eqb (granularity_of instance) "server"
  || String.eqb (granularity_of instance) "device".

Definition config_ok (w : World) (instance : gmap string string) : bool :=
  devices_ok w instance && ring_ok w instance && granularity_ok instance.

(** The Swift library and the agent framework, which the check calls and
    this repository does not define: [split_policy_string] and
    [get_data_dir] of Swift's storage policies, and
    [AgentCheck._set_dimensions], which merges the caller's dimensions into
    the ones handed to it. *)
Class SwiftLib : Type := {
  Policy : Type;
  split_policy_string : string -> exn + (string * Policy);
  get_data_dir : Policy -> string;
  _set_dimensions :
    gmap string string -> gmap string string -> gmap string string
}.

Section check.

Context {lib : SwiftLib}.

(** [datadir] as [get_ring_and_datadir] picks it. *)
Definition datadir_of (base : string) (policy : Policy) : string :=
  if String.eqb base "object" then get_data_dir policy
  else String.append base "s".

(**
<<
  ring_name = os.path.basename(path).split('.')[0]
  base, policy = split_policy_string(ring_name)
  if base == 'object':
      datadir = get_data_dir(policy)
  else:
      datadir = base + 's'
  return Ring(path), ring_name, datadir
>> *)
Definition get_ring_and_datadir (w : World) (path : string)
    : M (Ring * string * string) :=
  let ring_name := ring_name_of path in
  '(base, policy) ← lift (split_policy_string ring_name);
  let datadir := datadir_of base policy in
  emit (RingLoad path);;
  ring ← lift (ring_file w path);
  mret (ring, ring_name, datadir).

(** The part of [check] after the configuration has been accepted. *)
Definition check_body (w : World) (instance : gmap string string)
    (device_root ring_path granularity : string) : M unit :=
  '(ring, ring_name, datadir) ← get_ring_and_datadir w ring_path;
  d2p ← lift (build_dev2parts ring);
  emit (ListDir device_root);;
  match os_listdir w device_root with
  | inl errno => raise (OSError errno)
  | inr device_dirs =>
      st ← scan_devices w device_root datadir device_dirs (init_state d2p);
      let dimensions := _set_dimensions {[ "ring" := ring_name ]} instance in
      if String.eqb granularity "server" then report_server dimensions st
      else report_devices dimensions device_dirs
             (primary_count st) (handoffs st)
  end.

Definition check (w : World) (instance : gmap string string) : M unit :=
  let device_root := device_root_of instance in
  if negb (os_path_exists w device_root)
     || negb (os_path_isdir w device_root) then
    log_error "devices must exist or be a directory"
  else
    let ring_path := ring_path_of instance in
    if negb (os_path_exists w ring_path)
       || negb (os_path_isfile w ring_path) then
      log_error "ring must exist"
    else
      let granularity := granularity_of instance in
      if negb (String.eqb granularity "server"
               || String.eqb granularity "device") then
        log_error "granularity must be either 'server' or 'drive'"
      else
        check_body w instance device_root ring_path granularity.

(** What the check needs to get past configuration, ring loading and the
    listing of the device root: the policy of the ring name, the ring,
    the index built from it, and the device directories. *)
Definition loaded (w : World) (instance : gmap string string)
    (base : string) (policy : Policy) (ring : Ring)
    (idx : gmap string (gset nat)) (device_dirs : list string) : Prop :=
  config_ok w instance = true
  /\ split_policy_string (ring_name_of (ring_path_of instance))
     = inr (base, policy)
  /\ ring_file w (ring_path_of instance) = inr ring
  /\ build_dev2parts ring = inr idx
  /\ os_listdir w (device_root_of instance) = inr device_dirs.

(** The dimensions every gauge of one invocation carries. *)
Definition dimensions_of (instance : gmap string string)
    : gmap string string :=
  _set_dimensions {[ "ring" := ring_name_of (ring_path_of instance) ]}
    instance.

End check.

(** ** Reference notions the properties are stated with *)


Definition id_resolves (ds : list (option Dev)) (device_id : nat) : bool :=
  match ds !! device_id with
  | Some (Some _) => true
  | _ => false
  end.

Definition ring_resolves (ring : Ring) : bool :=
  forallb (forallb (id_resolves (devs ring))) (_replica2part2dev_id ring).


(** The device named by one replica row for partition [p], if any. *)
Definition holder (ds : list (option Dev)) (p : nat) (part2dev : list nat)
    : option string :=
  match part2dev !! p with
  | Some device_id =>
      match ds !! device_id with
      | Some (Some d) => Some (device d)
      | _ => None
      end
  | None => None
  end.

(** The devices assigned to partition [p], one per replica, in replica
    order and with repetitions. *)
Definition holders (ring : Ring) (p : nat) : list string :=
  omap (holder (devs ring) p) (_replica2part2dev_id ring).

(** The devices of the index whose set contains [p]. *)
Definition devices_holding (idx : gmap string (gset nat)) (p : nat)
    : gset string :=
  dom (filter (fun kv => p ∈ kv.2) idx).

(** The numeric-named entries of a listing, and the partition numbers they
    denote. *)
Definition numeric_entries (parts : list string) : list string :=
  filter (fun e => Py.isdigit e = true) parts.





(** The entries of a device's data directory; none when it cannot be
    listed. *)
Definition listing (w : World) (device_root datadir device_dir : string)
    : list string :=
  match os_listdir w (Py.join3 device_root device_dir datadir) with
  | inr parts => parts
  | inl _ => []
  end.



Definition primary_count_of (st : scan_state) (d : string) : nat :=
  dd_value 0 d (primary_count st).
Definition handoffs_of (st : scan_state) (d : string) : gset nat :=
  dd_value ∅ d (handoffs st).

Definition listdir_events (device_root datadir : string)
    (device_dirs : list string) : list event :=
  (fun d => ListDir (Py.join3 device_root d datadir)) <$> device_dirs.

(** The two gauges reported for one device directory. *)
Definition device_gauges (dimensions : gmap string string)
    (pc : gmap string nat) (ho : gmap string (gset nat)) (dev : string)
    : list event :=
  [ Gauge "swift_handoffs.primary" (dd_value 0 dev pc)
      (<["device" := dev]> dimensions);
    Gauge "swift_handoffs.handoffs" (size (dd_value ∅ dev ho))
      (<["device" := dev]> dimensions) ].



(** The message of the first configuration test that fails. *)
Definition config_message (w : World) (instance : gmap string string)
    : string :=
  if negb (devices_ok w instance) then "devices must exist or be a directory"
  else if negb (ring_ok w instance) then "ring must exist"
  else "granularity must be either 'server' or 'drive'".

(** ** A small cluster for the examples *)

(** Storage policies of the example cluster: policy 0 is the default one,
    policy 1 has its own object ring. *)
Definition ex_split_policy_string (s : string) : exn + (string * nat) :=
  if String.eqb s "object" then inr ("object", 0)
  else if String.eqb s "object-1" then inr ("object", 1)
  else if String.eqb s "account" then inr ("account", 0)
  else if String.eqb s "container" then inr ("container", 0)
  else inl PolicyError.

Definition ex_get_data_dir (policy : nat) : string :=
  match policy with
  | 0 => "objects"
  | _ => "objects-1"
  end.

Definition ex_set_dimensions (dimensions instance : gmap string string)
    : gmap string string :=
  <["service" := "object-storage"]> dimensions.

(** Six partitions, two replicas, three devices; [sda1] is primary for
    1, 2, 3 and [sdb1] for 0, 2, 3, 4, 5. *)
Definition ex_ring : Ring :=
  {| _replica2part2dev_id := [ [1; 0; 0; 0; 1; 2]; [2; 2; 1; 1; 2; 1] ];
     devs := [ Some {| device := "sda1" |};
               Some {| device := "sdb1" |};
               Some {| device := "sdc1" |} ] |}.

Fixpoint assoc {A : Type} (k : string) (l : list (string * A)) : option A :=
  match l with
  | [] => None
  | (k', v) :: l' => if String.eqb k k' then Some v else assoc k l'
  end.

(** A node with the device root [/srv/node] and the default object ring;
    [data] gives the outcome of listing the data directories, and a
    directory not mentioned does not exist. *)
Definition mk_world (ring : Ring) (device_dirs : list string)
    (data : list (string * (nat + list string))) : World :=
  {| os_path_exists p :=
       String.eqb p "/srv/node" || String.eqb p "/etc/swift/object.ring.gz";
     os_path_isdir p := String.eqb p "/srv/node";
     os_path_isfile p := String.eqb p "/etc/swift/object.ring.gz";
     os_listdir p :=
       if String.eqb p "/srv/node" then inr device_dirs
       else default (inl ENOENT) (assoc p data);
     ring_file p :=
       if String.eqb p "/etc/swift/object.ring.gz" then inr ring
       else inl RingError |}.

Definition ex_sda1 : list string := ["1"; "2"; "5"; "tmp"].
Definition ex_sdb1 : list string := ["0"; "3"; "4"; "auditor_status_ALL.json"].

(** Two devices: [sda1] holds two primaries and one handoff, [sdb1] three
    primaries. *)
Definition ex_world : World :=
  mk_world ex_ring ["sda1"; "sdb1"]
    [ ("/srv/node/sda1/objects", inr ex_sda1);
      ("/srv/node/sdb1/objects", inr ex_sdb1) ].

(** The same node with a third device that has no data directory yet. *)
Definition ex_world_absent : World :=
  mk_world ex_ring ["sda1"; "sdb1"; "sdz9"]
    [ ("/srv/node/sda1/objects", inr ex_sda1);
      ("/srv/node/sdb1/objects", inr ex_sdb1) ].

(** The same node when the data directory of [sdb1] cannot be read. *)
Definition ex_world_denied : World :=
  mk_world ex_ring ["sda1"; "sdb1"]
    [ ("/srv/node/sda1/objects", inr ex_sda1);
      ("/srv/node/sdb1/objects", inl EACCES) ].

(** A device on which two entries denote the same partition number. *)
Definition ex_world_zeros : World :=
  mk_world ex_ring ["sda1"]
    [ ("/srv/node/sda1/objects", inr ["5"; "05"]) ].


Definition ex_server : gmap string string := ∅.
Definition ex_device : gmap string string := {[ "granularity" := "device" ]}.
Definition ex_DEVICE : gmap string string := {[ "granularity" := "DEVICE" ]}.
Definition ex_drive : gmap string string := {[ "granularity" := "drive" ]}.
Definition ex_no_devices : gmap string string := {[ "devices" := "/mnt" ]}.

Definition ex_lib : SwiftLib :=
  {| Policy := nat;
     split_policy_string := ex_split_policy_string;
     get_data_dir := ex_get_data_dir;
     _set_dimensions := ex_set_dimensions |}.

Definition ex_check : World -> gmap string string -> M unit :=
  @check ex_lib.

(** The index of the example ring and the scans of the example nodes. *)
Definition ex_idx : gmap string (gset nat) :=
  match build_dev2parts ex_ring with
  | inr idx => idx
  | inl _ => ∅
  end.

Definition final_state (m : M scan_state) : scan_state :=
  match outcome m with
  | inr st => st
  | inl _ => init_state ∅
  end.


Definition ex_scan_zeros : M scan_state :=
  scan_devices ex_world_zeros "/srv/node" "objects" ["sda1"]
    (init_state ex_idx).

(** A node holding the account, container and object rings. *)
Definition ex_world_rings : World :=
  {| os_path_exists := os_path_exists ex_world;
     os_path_isdir := os_path_isdir ex_world;
     os_path_isfile := os_path_isfile ex_world;
     os_listdir := os_listdir ex_world;
     ring_file p :=
       if String.eqb p "/etc/swift/account.ring.gz"
          || String.eqb p "/etc/swift/container.ring.gz"
          || String.eqb p "/etc/swift/object.ring.gz"
          || String.eqb p "/etc/swift/object-1.ring.gz"
       then inr ex_ring
       else inl RingError |}.

(** ** Tactics *)

(** Two computations that did the same so far are equal when what they
    do next is. *)
Ltac same_continuation :=
  match goal with
  | |- (?t ++ trace ?a, outcome ?a) = (?t ++ trace ?b, outcome ?b) =>
      cut (a = b); [by intros ->|]
  | |- (?ev :: trace ?a, outcome ?a) = (?ev :: trace ?b, outcome ?b) =>
      cut (a = b); [by intros ->|]
  end.


(** ** Further notions and examples *)

(** A ring with a fractional replica count: the row of the last replica is
    shorter than the others. *)
Definition ex_ring_ragged : Ring :=
  {| _replica2part2dev_id := [ [0; 1; 0; 1]; [1; 0] ];
     devs := [ Some {| device := "sda1" |}; Some {| device := "sdb1" |} ] |}.

(** A ring whose device table has a hole where a device was removed, and
    one whose partition table names a device id beyond the table. *)
Definition ex_ring_hole : Ring :=
  {| _replica2part2dev_id := [ [0; 1] ];
     devs := [ Some {| device := "sda1" |}; None ] |}.

Definition ex_ring_beyond : Ring :=
  {| _replica2part2dev_id := [ [0; 7] ];
     devs := [ Some {| device := "sda1" |} ] |}.

(** An index in which every device has at least one partition. *)
Definition no_empty_sets (m : gmap string (gset nat)) : Prop :=
  forall d s, m !! d = Some s -> s <> ∅.




(** A node whose ring has lost a device, and one whose device root
    vanishes between the configuration test and its listing. *)
Definition ex_world_hole : World :=
  mk_world ex_ring_hole ["sda1"] [ ("/srv/node/sda1/objects", inr ["0"]) ].

Definition ex_world_vanished : World :=
  {| os_path_exists := os_path_exists ex_world;
     os_path_isdir := os_path_isdir ex_world;
     os_path_isfile := os_path_isfile ex_world;
     os_listdir p := inl ENOENT;
     ring_file := ring_file ex_world |}.



(** A node without any device directory. *)
Definition ex_world_empty : World := mk_world ex_ring [] [].

(** The values reported under one gauge name, in the order of the
    reports. *)
Definition gauge_values (name : string) (evs : list event) : list nat :=
  omap (fun ev =>
          match ev with
          | Gauge n v _ => if String.eqb n name then Some v else None
          | _ => None
          end) evs.

Fixpoint contains_dot (s : string) : bool :=
  match s with
  | EmptyString => false
  | String c s' => Ascii.eqb c Py.dot || contains_dot s'
  end.

(** The names [os.listdir] returns: not empty and without a slash. *)
Definition entry_name (s : string) : bool :=
  negb (String.eqb s "") && negb (Py.contains_slash s).

(** An instance with an option the check does not know. *)
Definition ex_tagged : gmap string string :=
  {[ "collect_period" := "60"; "GRANULARITY" := "device" ]}.

(** A device on which four entries denote partition 1, of which [sda1] is
    a primary. *)
Definition ex_world_ones : World :=
  mk_world ex_ring ["sda1"]
    [ ("/srv/node/sda1/objects", inr ["1"; "01"; "001"; "0001"]) ].

(** ** Basic facts *)

Example isdigit_42 : Py.isdigit "42" = true /\ Py.int "42" = 42.
Proof. split; reflexivity. Qed.

Example isdigit_rejects :
  Py.isdigit "" = false /\ Py.isdigit "tmp" = false /\ Py.isdigit "12a" = false
  /\ Py.isdigit "-1" = false.
Proof. repeat split; reflexivity. Qed.

Example int_leading_zero : Py.isdigit "05" = true /\ Py.int "05" = 5.
Proof. split; reflexivity. Qed.

Example lower_mixed : Py.lower "DeViCe" = "device".
Proof. reflexivity. Qed.

Example basename_ring :
  Py.basename "/etc/swift/object-1.ring.gz" = "object-1.ring.gz"
  /\ Py.before_dot "object-1.ring.gz" = "object-1".
Proof. split; reflexivity. Qed.

Example join3_example :
  Py.join3 "/srv/node" "sda1" "objects" = "/srv/node/sda1/objects".
Proof. reflexivity. Qed.

Section defaultdict_facts.
Context {V : Type} (dflt : V).

Lemma dd_value_touch k k' m :
  dd_value dflt k' (dd_touch dflt k m) = dd_value dflt k' m.
Proof.
  unfold dd_value, dd_touch.
  destruct (m !! k) eqn:Hk; [done|].
  destruct (decide (k = k')) as [->|Hne].
  - by rewrite lookup_insert_eq, Hk.
  - by rewrite lookup_insert_ne.
Qed.

Lemma dd_touch_lookup_some k k' m v :
  m !! k' = Some v -> dd_touch dflt k m !! k' = Some v.
Proof.
  unfold dd_touch. intros Hv.
  destruct (m !! k) eqn:Hk; [done|].
  rewrite lookup_insert_ne; [done|]. congruence.
Qed.

Lemma dd_value_insert_eq k v m : dd_value dflt k (<[k := v]> m) = v.
Proof. unfold dd_value. by rewrite lookup_insert_eq. Qed.

Lemma dd_value_insert_ne k k' v m :
  k <> k' -> dd_value dflt k' (<[k := v]> m) = dd_value dflt k' m.
Proof. intros. unfold dd_value. by rewrite lookup_insert_ne. Qed.

Lemma dd_value_empty k : dd_value dflt k ∅ = dflt.
Proof. unfold dd_value. by rewrite lookup_empty. Qed.

End defaultdict_facts.

(** ** Properties of the primary index *)

Lemma dd_add_value name part m d :
  dd_value ∅ d (dd_add name part m) =
  if decide (name = d) then {[part]} ∪ dd_value ∅ d m else dd_value ∅ d m.
Proof.
  unfold dd_add, dd_get. case_decide as Hd.
  - subst. by rewrite dd_value_insert_eq.
  - rewrite dd_value_insert_ne by done. apply dd_value_touch.
Qed.

Lemma dev_name_holder ds id name :
  dev_name ds id = inr name <-> exists dv, ds !! id = Some (Some dv) /\ device dv = name.
Proof.
  unfold dev_name. destruct (ds !! id) as [[dv|]|]; split.
  - intros [= <-]. eauto.
  - intros (dv' & [= <-] & <-). done.
  - done.
  - intros (? & [=] & _).
  - done.
  - intros (? & [=] & _).
Qed.

Lemma index_parts_elem ds l : forall k m m',
  index_parts ds k l m = inr m' ->
  forall d p,
    p ∈ dd_value ∅ d m' <->
    p ∈ dd_value ∅ d m \/
    exists i id, l !! i = Some id /\ dev_name ds id = inr d /\ p = k + i.
Proof.
  induction l as [|id l IH]; intros k m m' Hrun d p; simpl in Hrun.
  - injection Hrun as <-. split; [by left|].
    intros [?|(i & id & Hi & _)]; [done|]. by rewrite lookup_nil in Hi.
  - destruct (dev_name ds id) as [e|name] eqn:Hname; [done|].
    rewrite (IH _ _ _ Hrun d p), dd_add_value. split.
    + intros [Hin|(i & id' & Hi & Hd & ->)].
      * case_decide as Hd; [|by left]. subst.
        apply elem_of_union in Hin as [Hin|Hin]; [|by left].
        apply elem_of_singleton in Hin as ->.
        right. exists 0, id. split_and!; [done|done|lia].
      * right. exists (S i), id'. split_and!; [done|done|lia].
    + intros [Hin|(i & id' & Hi & Hd & ->)].
      * left. case_decide; [set_solver|done].
      * destruct i as [|i]; simpl in Hi.
        -- injection Hi as ->. left. rewrite Hname in Hd. injection Hd as ->.
           rewrite decide_True by done. replace (k + 0) with k by lia. set_solver.
        -- right. exists i, id'. split_and!; [done|done|lia].
Qed.

Lemma index_replicas_elem ds rows : forall m m',
  index_replicas ds rows m = inr m' ->
  forall d p,
    p ∈ dd_value ∅ d m' <->
    p ∈ dd_value ∅ d m \/ d ∈ omap (holder ds p) rows.
Proof.
  induction rows as [|row rows IH]; intros m m' Hrun d p; simpl in Hrun.
  - injection Hrun as <-. simpl. split; [by left|].
    intros [?|Hin]; [done|]. by apply elem_of_nil in Hin.
  - destruct (index_parts ds 0 row m) as [e|m1] eqn:Hrow; [done|].
    rewrite (IH _ _ Hrun d p), (index_parts_elem _ _ _ _ _ Hrow d p).
    assert (Hh : holder ds p row = Some d <->
                 exists i id, row !! i = Some id /\ dev_name ds id = inr d /\ p = 0 + i).
    { unfold holder. split.
      - destruct (row !! p) as [id|] eqn:Hp; [|done].
        intros Hd. exists p, id. split_and!; [done| |done].
        apply dev_name_holder.
        destruct (ds !! id) as [[dv|]|]; [|done|done].
        injection Hd as <-. eauto.
      - intros (i & id & Hi & Hd & ->). simpl. rewrite Hi.
        apply dev_name_holder in Hd as (dv & -> & <-). done. }
    simpl. destruct (holder ds p row) as [d'|] eqn:Hd'.
    + rewrite elem_of_cons. split.
      * intros [[?|Hex]|?]; [by left| |by right; right].
        right; left. apply Hh in Hex. congruence.
      * intros [?|[->|?]]; [by left; left| |by right].
        left; right. by apply Hh.
    + split.
      * intros [[?|Hex]|?]; [by left| |by right].
        apply Hh in Hex. done.
      * intros [?|?]; [by left; left|by right].
Qed.

Lemma index_parts_total ds l : forall k m,
  forallb (id_resolves ds) l = true ->
  exists m', index_parts ds k l m = inr m'.
Proof.
  induction l as [|id l IH]; intros k m Hok; simpl in *.
  - eauto.
  - apply andb_true_iff in Hok as [Hid Hl].
    unfold id_resolves in Hid. unfold dev_name.
    destruct (ds !! id) as [[dv|]|]; [|done|done].
    by apply IH.
Qed.

Lemma index_replicas_total ds rows : forall m,
  forallb (forallb (id_resolves ds)) rows = true ->
  exists m', index_replicas ds rows m = inr m'.
Proof.
  induction rows as [|row rows IH]; intros m Hok; simpl in *.
  - eauto.
  - apply andb_true_iff in Hok as [Hrow Hrows].
    destruct (index_parts_total ds row 0 m Hrow) as [m1 ->].
    by apply IH.
Qed.



(** ** Properties of the scan *)












(** *** The monad *)

Lemma bind_emit {B} ev (f : unit -> M B) :
  (emit ev ≫= f) = (ev :: trace (f tt), outcome (f tt)).
Proof. unfold mbind, M_bind, emit, trace, outcome. by destruct (f tt). Qed.

Lemma bind_lift_inr {A B} (a : A) (f : A -> M B) : (lift (inr a) ≫= f) = f a.
Proof. unfold mbind, M_bind, lift. by destruct (f a). Qed.

Lemma bind_lift_inl {A B} (e : exn) (f : A -> M B) :
  (lift (inl e) ≫= f) = ([], inl e).
Proof. done. Qed.

Lemma bind_inr {A B} t (a : A) (f : A -> M B) :
  ((t, inr a) ≫= f) = (t ++ trace (f a), outcome (f a)).
Proof. unfold mbind, M_bind, trace, outcome. by destruct (f a). Qed.


(** *** One device directory *)

Lemma scan_device_eq w root datadir st d :
  scan_device w root datadir st d =
  ([ListDir (Py.join3 root d datadir)],
   match os_listdir w (Py.join3 root d datadir) with
   | inl errno => if Nat.eqb errno ENOENT then inr st else inl (OSError errno)
   | inr parts => inr (foldl (classify_part d) st parts)
   end).
Proof.
  unfold scan_device. rewrite bind_emit.
  destruct (os_listdir w _) as [errno|parts]; [|done].
  by destruct (Nat.eqb errno ENOENT).
Qed.



(** *** All device directories *)




(** ** Properties of the report *)




Lemma report_server_eq dims st :
  report_server dims st =
  ([ Gauge "swift_handoffs.primary"
       (sum_values id (primary_count st)) dims;
     Gauge "swift_handoffs.handoffs"
       (sum_values size (handoffs st)) dims ], inr tt).
Proof. done. Qed.

Lemma device_gauges_touch dims pc ho k d :
  device_gauges dims (dd_touch 0 k pc) (dd_touch ∅ k ho) d
  = device_gauges dims pc ho d.
Proof. unfold device_gauges. by rewrite !dd_value_touch. Qed.

Lemma report_devices_eq dims dirs : forall pc ho,
  report_devices dims dirs pc ho
  = (flat_map (device_gauges dims pc ho) dirs, inr tt).
Proof.
  induction dirs as [|d dirs IH]; intros pc ho; [done|].
  simpl. rewrite IH. do 3 f_equal.
  apply flat_map_ext. intros k. apply device_gauges_touch.
Qed.




(** *** Sets built from lists *)






(** ** Properties of the check *)


Lemma scan_devices_ext w1 w2 root datadir dirs :
  (forall path, os_listdir w1 path = os_listdir w2 path) ->
  forall st,
    scan_devices w1 root datadir dirs st = scan_devices w2 root datadir dirs st.
Proof.
  intros Hext. induction dirs as [|d dirs IH]; intros st; [done|].
  simpl. rewrite !scan_device_eq, Hext.
  destruct (os_listdir w2 _) as [errno|parts].
  - destruct (Nat.eqb errno ENOENT); [|done].
    by rewrite !bind_inr, IH.
  - by rewrite !bind_inr, IH.
Qed.








Section check_facts.

Context {lib : SwiftLib}.

Lemma check_devices_bad w inst :
  devices_ok w inst = false ->
  check w inst = ([LogError "devices must exist or be a directory"], inr tt).
Proof.
  unfold devices_ok, check. intros H.
  rewrite <- negb_andb, H. done.
Qed.

Lemma check_ring_bad w inst :
  devices_ok w inst = true -> ring_ok w inst = false ->
  check w inst = ([LogError "ring must exist"], inr tt).
Proof.
  unfold devices_ok, ring_ok, check. intros H1 H2.
  rewrite <- !negb_andb, H1, H2. done.
Qed.

Lemma check_granularity_bad w inst :
  devices_ok w inst = true -> ring_ok w inst = true ->
  granularity_ok inst = false ->
  check w inst
  = ([LogError "granularity must be either 'server' or 'drive'"], inr tt).
Proof.
  unfold devices_ok, ring_ok, granularity_ok, check. intros H1 H2 H3.
  rewrite <- !negb_andb, H1, H2, H3. done.
Qed.

Lemma config_ok_split w inst :
  config_ok w inst = true <->
  devices_ok w inst = true /\ ring_ok w inst = true
  /\ granularity_ok inst = true.
Proof. unfold config_ok. rewrite !andb_true_iff. tauto. Qed.

Lemma check_accepted w inst :
  config_ok w inst = true ->
  check w inst
  = check_body w inst (device_root_of inst) (ring_path_of inst)
      (granularity_of inst).
Proof.
  intros H. apply config_ok_split in H as (H1 & H2 & H3).
  unfold devices_ok, ring_ok, granularity_ok, check in *.
  rewrite <- !negb_andb, H1, H2, H3. done.
Qed.

Lemma check_rejected w inst :
  config_ok w inst = false ->
  check w inst = ([LogError (config_message w inst)], inr tt).
Proof.
  intros H. unfold config_message.
  destruct (devices_ok w inst) eqn:H1; simpl.
  - destruct (ring_ok w inst) eqn:H2; simpl.
    + apply check_granularity_bad; [done|done|].
      unfold config_ok in H. rewrite H1, H2 in H. done.
    + by apply check_ring_bad.
  - by apply check_devices_bad.
Qed.

Lemma get_ring_and_datadir_eq w path base policy ring :
  split_policy_string (ring_name_of path) = inr (base, policy) ->
  ring_file w path = inr ring ->
  get_ring_and_datadir w path
  = ([RingLoad path], inr (ring, ring_name_of path, datadir_of base policy)).
Proof.
  intros Hs Hr. unfold get_ring_and_datadir.
  rewrite Hs, bind_lift_inr, bind_emit, Hr, bind_lift_inr. done.
Qed.


Lemma check_body_loaded w inst g base policy ring idx dirs :
  split_policy_string (ring_name_of (ring_path_of inst)) = inr (base, policy) ->
  ring_file w (ring_path_of inst) = inr ring ->
  build_dev2parts ring = inr idx ->
  os_listdir w (device_root_of inst) = inr dirs ->
  forall st,
    scan_devices w (device_root_of inst) (datadir_of base policy) dirs
      (init_state idx)
    = (listdir_events (device_root_of inst) (datadir_of base policy) dirs,
       inr st) ->
    check_body w inst (device_root_of inst) (ring_path_of inst) g
    = ([RingLoad (ring_path_of inst); ListDir (device_root_of inst)]
       ++ listdir_events (device_root_of inst) (datadir_of base policy) dirs
       ++ (if String.eqb g "server"
           then [ Gauge "swift_handoffs.primary"
                    (sum_values id (primary_count st)) (dimensions_of inst);
                  Gauge "swift_handoffs.handoffs"
                    (sum_values size (handoffs st)) (dimensions_of inst) ]
           else flat_map
                  (device_gauges (dimensions_of inst)
                     (primary_count st) (handoffs st)) dirs),
        inr tt).
Proof.
  intros Hs Hr Hb Hl st Hscan. unfold check_body.
  rewrite (get_ring_and_datadir_eq w _ base policy ring Hs Hr).
  rewrite bind_inr. cbv beta iota.
  rewrite Hb, bind_lift_inr, bind_emit, Hl, Hscan, bind_inr.
  unfold trace, outcome, dimensions_of. simpl fst. simpl snd.
  destruct (String.eqb g "server").
  - rewrite report_server_eq. done.
  - rewrite report_devices_eq. done.
Qed.


Lemma get_ring_and_datadir_ext w1 w2 path :
  ring_file w1 path = ring_file w2 path ->
  get_ring_and_datadir w1 path = get_ring_and_datadir w2 path.
Proof.
  intros Hring. unfold get_ring_and_datadir.
  destruct (split_policy_string (ring_name_of path)) as [e|[base policy]];
    [done|].
  by rewrite !bind_lift_inr, Hring.
Qed.

(** The accepted part reads the world through the ring file and the
    listings only, and the instance through [_set_dimensions] only. *)
Lemma check_body_ext w1 w2 inst1 inst2 root rp g :
  ring_file w1 rp = ring_file w2 rp ->
  (forall path, os_listdir w1 path = os_listdir w2 path) ->
  (forall dims, _set_dimensions dims inst1 = _set_dimensions dims inst2) ->
  check_body w1 inst1 root rp g = check_body w2 inst2 root rp g.
Proof.
  intros Hring Hls Hdims. unfold check_body.
  rewrite (get_ring_and_datadir_ext w1 w2 rp Hring).
  destruct (get_ring_and_datadir w2 rp) as [t [e|[[ring rn] dd]]]; [done|].
  rewrite !bind_inr. same_continuation.
  destruct (build_dev2parts ring) as [e|idx]; [done|].
  rewrite !bind_lift_inr, !bind_emit. same_continuation.
  rewrite Hls.
  destruct (os_listdir w2 root) as [errno|dirs]; [done|].
  rewrite (scan_devices_ext w1 w2 root _ dirs Hls).
  destruct (scan_devices w2 root dd dirs (init_state idx)) as [t' [e|st]];
    [done|].
  rewrite !bind_inr, Hdims. done.
Qed.

End check_facts.

(** * The claims *)

(** ** The primary index *)



(** A ring that puts both replicas of partition 0 on the same device: the
    device is listed twice among the holders and holds the partition once. *)
Example index_same_device_twice :
  let ring := {| _replica2part2dev_id := [[0; 1]; [0; 0]];
                 devs := [Some {| device := "sda1" |};
                          Some {| device := "sdb1" |}] |} in
  holders ring 0 = ["sda1"; "sda1"]
  /\ exists idx,
       build_dev2parts ring = inr idx
       /\ dd_value ∅ "sda1" idx = {[0; 1]}
       /\ size (devices_holding idx 0) = 1.
Proof.
  split; [reflexivity|]. eexists. split; [by vm_compute|].
  split; by vm_compute.
Qed.

(** ** Classification *)






Example counts_with_leading_zero :
  numeric_entries (listing ex_world_zeros "/srv/node" "objects" "sda1")
    = ["5"; "05"]
  /\ primary_count_of (final_state ex_scan_zeros) "sda1" = 0
  /\ handoffs_of (final_state ex_scan_zeros) "sda1" = {[5]}.
Proof. split_and!; by vm_compute. Qed.

(** ** The check as a whole *)

Section claims.

Context {lib : SwiftLib}.


(** C5. When the device root is missing or not a directory, the ring path
    is missing or not a regular file, or the granularity the check reads is
    neither [server] nor [device], the check does a single thing: it logs
    the message of the first failing test. It reports no gauge, loads no
    ring, lists no directory and returns without raising. *)
Theorem configuration_errors w inst :
  os_path_exists w (device_root_of inst) = false
  \/ os_path_isdir w (device_root_of inst) = false
  \/ os_path_exists w (ring_path_of inst) = false
  \/ os_path_isfile w (ring_path_of inst) = false
  \/ (granularity_of inst <> "server" /\ granularity_of inst <> "device") ->
  check w inst = ([LogError (config_message w inst)], inr tt)
  /\ gauges (check w inst) = []
  /\ filter (fun ev => is_io ev = true) (trace (check w inst)) = []
  /\ outcome (check w inst) = inr tt.
Proof.
  intros Hbad.
  assert (Hc : config_ok w inst = false).
  { unfold config_ok, devices_ok, ring_ok, granularity_ok.
    destruct Hbad as [->|[->|[->|[->|[H1 H2]]]]];
      rewrite ?andb_false_r, ?andb_false_l; try done.
    apply String.eqb_neq in H1, H2. rewrite H1, H2.
    by rewrite !andb_false_r. }
  rewrite (check_rejected w inst Hc). done.
Qed.



(** C8. The data directory that [get_ring_and_datadir] returns for a ring
    path follows the base of the ring name, which is what precedes the
    first dot of the last path component: for the base [object] it is what
    [get_data_dir] gives for the policy of the ring name, and for any other
    base it is the base followed by [s]. *)
Theorem datadir_by_ring_base w path base policy ring :
  split_policy_string (ring_name_of path) = inr (base, policy) ->
  ring_file w path = inr ring ->
  exists datadir,
    outcome (get_ring_and_datadir w path)
    = inr (ring, ring_name_of path, datadir)
    /\ (base = "object" -> datadir = get_data_dir policy)
    /\ (base <> "object" -> datadir = String.append base "s").
Proof.
  intros Hs Hr. exists (datadir_of base policy).
  rewrite (get_ring_and_datadir_eq w path base policy ring Hs Hr).
  split; [done|]. unfold datadir_of. split.
  - intros ->. done.
  - intros Hne. apply String.eqb_neq in Hne. by rewrite Hne.
Qed.



End claims.

(** ** The claims on the example cluster *)




(** The unreadable data directory of [sdb1] ends the check with its
    error, after the listing of [sda1] and before any gauge. *)
Example check_permission_denied :
  outcome (ex_check ex_world_denied ex_server) = inl (OSError EACCES)
  /\ trace (ex_check ex_world_denied ex_server)
     = [ RingLoad "/etc/swift/object.ring.gz"; ListDir "/srv/node";
         ListDir "/srv/node/sda1/objects"; ListDir "/srv/node/sdb1/objects" ].
Proof. split; by vm_compute. Qed.

Lemma configuration_errors_witness :
  (os_path_exists ex_world (device_root_of ex_drive) = false
   \/ os_path_isdir ex_world (device_root_of ex_drive) = false
   \/ os_path_exists ex_world (ring_path_of ex_drive) = false
   \/ os_path_isfile ex_world (ring_path_of ex_drive) = false
   \/ (granularity_of ex_drive <> "server"
       /\ granularity_of ex_drive <> "device"))
  /\ @check ex_lib ex_world ex_drive
     = ([LogError (config_message ex_world ex_drive)], inr tt)
  /\ gauges (@check ex_lib ex_world ex_drive) = []
  /\ filter (fun ev => is_io ev = true) (trace (@check ex_lib ex_world ex_drive))
     = []
  /\ outcome (@check ex_lib ex_world ex_drive) = inr tt.
Proof.
  assert (Hbad : granularity_of ex_drive <> "server"
                 /\ granularity_of ex_drive <> "device").
  { split; by vm_compute. }
  split; [by do 4 right|].
  apply (@configuration_errors ex_lib ex_world ex_drive). by do 4 right.
Defined.

(** The three configuration errors, each with its message. *)
Example check_invalid_granularity :
  ex_check ex_world ex_drive
  = ([LogError "granularity must be either 'server' or 'drive'"], inr tt).
Proof. by vm_compute. Qed.

Example check_missing_devices :
  ex_check ex_world ex_no_devices
  = ([LogError "devices must exist or be a directory"], inr tt).
Proof. by vm_compute. Qed.

Example check_missing_ring :
  ex_check ex_world {[ "ring" := "/etc/swift/account.ring.gz" ]}
  = ([LogError "ring must exist"], inr tt).
Proof. by vm_compute. Qed.



(** A device directory without data directory is reported with two
    zeros. *)
Example check_absent_datadir :
  outcome (ex_check ex_world_absent ex_device) = inr tt
  /\ drop 4 (gauges (ex_check ex_world_absent ex_device))
     = [ Gauge "swift_handoffs.primary" 0
           (<["device" := "sdz9"]> (@dimensions_of ex_lib ex_device));
         Gauge "swift_handoffs.handoffs" 0
           (<["device" := "sdz9"]> (@dimensions_of ex_lib ex_device)) ].
Proof. split; by vm_compute. Qed.

Lemma datadir_by_ring_base_witness :
  @split_policy_string ex_lib (ring_name_of "/etc/swift/account.ring.gz")
    = inr ("account", 0)
  /\ ring_file ex_world_rings "/etc/swift/account.ring.gz" = inr ex_ring
  /\ exists datadir,
       outcome (@get_ring_and_datadir ex_lib ex_world_rings
                  "/etc/swift/account.ring.gz")
       = inr (ex_ring, ring_name_of "/etc/swift/account.ring.gz", datadir)
       /\ ("account" = "object" -> datadir = @get_data_dir ex_lib 0)
       /\ ("account" <> "object" -> datadir = String.append "account" "s").
Proof.
  split; [reflexivity|]. split; [reflexivity|].
  apply (@datadir_by_ring_base ex_lib ex_world_rings
           "/etc/swift/account.ring.gz" "account" 0 ex_ring); reflexivity.
Defined.

Example datadir_examples :
  outcome (@get_ring_and_datadir ex_lib ex_world_rings
             "/etc/swift/account.ring.gz")
    = inr (ex_ring, "account", "accounts")
  /\ outcome (@get_ring_and_datadir ex_lib ex_world_rings
                "/etc/swift/container.ring.gz")
    = inr (ex_ring, "container", "containers")
  /\ outcome (@get_ring_and_datadir ex_lib ex_world_rings
                "/etc/swift/object.ring.gz")
    = inr (ex_ring, "object", "objects")
  /\ outcome (@get_ring_and_datadir ex_lib ex_world_rings
                "/etc/swift/object-1.ring.gz")
    = inr (ex_ring, "object-1", "objects-1").
Proof. split_and!; by vm_compute. Qed.



Example check_upper_case_granularity :
  ex_check ex_world ex_DEVICE = ex_check ex_world ex_device
  /\ ex_check ex_world {[ "granularity" := "Server" ]}
     = ex_check ex_world ex_server.
Proof. split; by vm_compute. Qed.

(** * Further properties *)

(** ** The index of any ring *)

Lemma dd_touch_lookup_ne {V} (dflt : V) k k' (m : gmap string V) :
  k <> k' -> dd_touch dflt k m !! k' = m !! k'.
Proof.
  intros Hne. unfold dd_touch. destruct (m !! k); [done|].
  by rewrite lookup_insert_ne.
Qed.

Lemma dd_add_no_empty name part m :
  no_empty_sets m -> no_empty_sets (dd_add name part m).
Proof.
  intros Hm d s. unfold dd_add, dd_get.
  destruct (decide (name = d)) as [->|Hne].
  - rewrite lookup_insert_eq. intros [= <-]. clear. set_solver.
  - rewrite lookup_insert_ne by done. rewrite dd_touch_lookup_ne by done.
    apply Hm.
Qed.

Lemma index_parts_no_empty ds l : forall k m m',
  index_parts ds k l m = inr m' -> no_empty_sets m -> no_empty_sets m'.
Proof.
  induction l as [|id l IH]; intros k m m' Hrun Hm; simpl in Hrun.
  - by injection Hrun as <-.
  - destruct (dev_name ds id) as [e|name]; [done|].
    eapply IH; [exact Hrun|]. by apply dd_add_no_empty.
Qed.

Lemma index_replicas_no_empty ds rows : forall m m',
  index_replicas ds rows m = inr m' -> no_empty_sets m -> no_empty_sets m'.
Proof.
  induction rows as [|row rows IH]; intros m m' Hrun Hm; simpl in Hrun.
  - by injection Hrun as <-.
  - destruct (index_parts ds 0 row m) as [e|m1] eqn:Hrow; [done|].
    eapply IH; [exact Hrun|]. by eapply index_parts_no_empty.
Qed.

Lemma dev_name_error ds id e :
  dev_name ds id = inl e <->
  (e = IndexError /\ ds !! id = None)
  \/ (e = TypeError /\ ds !! id = Some None).
Proof.
  unfold dev_name. destruct (ds !! id) as [[dv|]|].
  - split; [done|]. by intros [[_ [=]]|[_ [=]]].
  - split.
    + intros [= <-]. by right.
    + by intros [[_ [=]]|[-> _]].
  - split.
    + intros [= <-]. by left.
    + by intros [[-> _]|[_ [=]]].
Qed.

Lemma index_parts_error ds l : forall k m e,
  index_parts ds k l m = inl e ->
  exists i id, l !! i = Some id /\ dev_name ds id = inl e.
Proof.
  induction l as [|id l IH]; intros k m e Hrun; simpl in Hrun; [done|].
  destruct (dev_name ds id) as [e'|name] eqn:Hname.
  - injection Hrun as <-. by exists 0, id.
  - destruct (IH _ _ _ Hrun) as (i & id' & Hi & He). by exists (S i), id'.
Qed.

Lemma index_replicas_error ds rows : forall m e,
  index_replicas ds rows m = inl e ->
  exists r row i id,
    rows !! r = Some row /\ row !! i = Some id /\ dev_name ds id = inl e.
Proof.
  induction rows as [|row rows IH]; intros m e Hrun; simpl in Hrun; [done|].
  destruct (index_parts ds 0 row m) as [e'|m1] eqn:Hrow.
  - injection Hrun as <-.
    destruct (index_parts_error _ _ _ _ _ Hrow) as (i & id & Hi & He).
    by exists 0, row, i, id.
  - destruct (IH _ _ Hrun) as (r & row' & i & id & Hr & Hi & He).
    by exists (S r), row', i, id.
Qed.

Lemma index_parts_resolves ds l : forall k m m',
  index_parts ds k l m = inr m' -> forallb (id_resolves ds) l = true.
Proof.
  induction l as [|id l IH]; intros k m m' Hrun; simpl in *; [done|].
  unfold dev_name in Hrun. unfold id_resolves at 1.
  destruct (ds !! id) as [[dv|]|]; [|done|done].
  simpl. by eapply IH.
Qed.

Lemma index_replicas_resolves ds rows : forall m m',
  index_replicas ds rows m = inr m' ->
  forallb (forallb (id_resolves ds)) rows = true.
Proof.
  induction rows as [|row rows IH]; intros m m' Hrun; simpl in *; [done|].
  destruct (index_parts ds 0 row m) as [e|m1] eqn:Hrow; [done|].
  rewrite (index_parts_resolves _ _ _ _ _ Hrow). simpl. by eapply IH.
Qed.

(** X1. For any ring whose index is built, with rows of any lengths: a
    device name holds a partition in its set exactly when some replica row
    assigns the partition to a device of that name, and the keys of the
    index are exactly the device names with at least one partition. *)
Theorem index_membership (ring : Ring) (idx : gmap string (gset nat)) :
  build_dev2parts ring = inr idx ->
  (forall d p, p ∈ dd_value ∅ d idx <-> d ∈ holders ring p)
  /\ (forall d, d ∈ dom idx <-> exists p, d ∈ holders ring p)
  /\ (forall d, idx !! d <> Some ∅).
Proof.
  intros Hidx. unfold build_dev2parts in Hidx.
  assert (Hmem : forall d p, p ∈ dd_value ∅ d idx <-> d ∈ holders ring p).
  { intros d p. rewrite (index_replicas_elem _ _ _ _ Hidx d p).
    rewrite dd_value_empty. unfold holders. split; [|by right].
    intros [Hin|Hin]; [|done]. by apply not_elem_of_empty in Hin. }
  assert (Hne : no_empty_sets idx).
  { eapply index_replicas_no_empty; [exact Hidx|]. by intros d s. }
  split_and!.
  - done.
  - intros d. rewrite elem_of_dom. split.
    + intros [s Hs].
      destruct (set_choose_L s (Hne d s Hs)) as [p Hp].
      exists p. apply Hmem. unfold dd_value. by rewrite Hs.
    + intros [p Hp]. apply Hmem in Hp. unfold dd_value in Hp.
      destruct (idx !! d) as [s|]; [by eexists|].
      by apply not_elem_of_empty in Hp.
  - intros d Hd. by apply (Hne d ∅).
Qed.

Lemma index_membership_witness :
  exists idx,
    build_dev2parts ex_ring_ragged = inr idx
    /\ (forall d p, p ∈ dd_value ∅ d idx <-> d ∈ holders ex_ring_ragged p)
    /\ holders ex_ring_ragged 1 = ["sdb1"; "sda1"]
    /\ holders ex_ring_ragged 3 = ["sdb1"].
Proof.
  eexists. split; [by vm_compute|]. split; [|split; reflexivity].
  apply (index_membership ex_ring_ragged). by vm_compute.
Defined.

(** X2. The index is built exactly when every device id of the partition
    table names a device of the device table. Otherwise the build ends on
    the exception of an offending id: [IndexError] for an id beyond the
    table, [TypeError] for the hole of a removed device. *)
Theorem index_build_errors (ring : Ring) :
  (ring_resolves ring = true <-> exists idx, build_dev2parts ring = inr idx)
  /\ (forall e, build_dev2parts ring = inl e ->
        exists r row p device_id,
          _replica2part2dev_id ring !! r = Some row
          /\ row !! p = Some device_id
          /\ ((e = IndexError /\ devs ring !! device_id = None)
              \/ (e = TypeError /\ devs ring !! device_id = Some None))).
Proof.
  unfold build_dev2parts, ring_resolves. split.
  - split.
    + apply index_replicas_total.
    + intros [idx Hidx]. by eapply index_replicas_resolves.
  - intros e Hrun.
    destruct (index_replicas_error _ _ _ _ Hrun)
      as (r & row & p & id & Hr & Hp & He).
    exists r, row, p, id. split_and!; [done|done|]. by apply dev_name_error.
Qed.

Lemma index_build_errors_witness :
  build_dev2parts ex_ring_hole = inl TypeError
  /\ exists r row p device_id,
       _replica2part2dev_id ex_ring_hole !! r = Some row
       /\ row !! p = Some device_id
       /\ ((TypeError = IndexError
            /\ devs ex_ring_hole !! device_id = None)
           \/ (TypeError = TypeError
               /\ devs ex_ring_hole !! device_id = Some None)).
Proof.
  assert (H : build_dev2parts ex_ring_hole = inl TypeError) by reflexivity.
  split; [exact H|].
  exact (proj2 (index_build_errors ex_ring_hole) TypeError H).
Defined.

Example index_build_error_examples :
  build_dev2parts ex_ring_hole = inl TypeError
  /\ build_dev2parts ex_ring_beyond = inl IndexError.
Proof. split; reflexivity. Qed.

(** ** Failures and the course of a check *)



Lemma listdir_events_no_gauge root datadir dirs :
  Forall (fun ev => is_gauge ev = false) (listdir_events root datadir dirs).
Proof. unfold listdir_events. induction dirs; simpl; by constructor. Qed.

Section course.

Context {lib : SwiftLib}.

Lemma check_body_no_policy w inst root rp g e :
  split_policy_string (ring_name_of rp) = inl e ->
  check_body w inst root rp g = ([], inl e).
Proof.
  intros Hs. unfold check_body, get_ring_and_datadir. by rewrite Hs.
Qed.

Lemma check_body_no_ring w inst root rp g base policy e :
  split_policy_string (ring_name_of rp) = inr (base, policy) ->
  ring_file w rp = inl e ->
  check_body w inst root rp g = ([RingLoad rp], inl e).
Proof.
  intros Hs Hr. unfold check_body, get_ring_and_datadir.
  by rewrite Hs, bind_lift_inr, bind_emit, Hr.
Qed.

Lemma check_body_no_index w inst root rp g base policy ring e :
  split_policy_string (ring_name_of rp) = inr (base, policy) ->
  ring_file w rp = inr ring ->
  build_dev2parts ring = inl e ->
  check_body w inst root rp g = ([RingLoad rp], inl e).
Proof.
  intros Hs Hr Hb. unfold check_body.
  rewrite (get_ring_and_datadir_eq w rp base policy ring Hs Hr).
  rewrite bind_inr. cbv beta iota. by rewrite Hb.
Qed.

Lemma check_body_no_listing w inst root rp g base policy ring idx errno :
  split_policy_string (ring_name_of rp) = inr (base, policy) ->
  ring_file w rp = inr ring ->
  build_dev2parts ring = inr idx ->
  os_listdir w root = inl errno ->
  check_body w inst root rp g
  = ([RingLoad rp; ListDir root], inl (OSError errno)).
Proof.
  intros Hs Hr Hb Hl. unfold check_body.
  rewrite (get_ring_and_datadir_eq w rp base policy ring Hs Hr).
  rewrite bind_inr. cbv beta iota.
  by rewrite Hb, bind_lift_inr, bind_emit, Hl.
Qed.


(** X3. With an accepted configuration, a failure of the policy lookup, of
    the ring load or of the index build ends the check with that exception
    before any directory is listed and any gauge reported: nothing was done
    but, after the policy lookup, the ring load. *)
Theorem failures_before_scan w inst :
  config_ok w inst = true ->
  (forall e,
      split_policy_string (ring_name_of (ring_path_of inst)) = inl e ->
      check w inst = ([], inl e))
  /\ (forall base policy e,
        split_policy_string (ring_name_of (ring_path_of inst))
          = inr (base, policy) ->
        ring_file w (ring_path_of inst) = inl e ->
        check w inst = ([RingLoad (ring_path_of inst)], inl e))
  /\ (forall base policy ring e,
        split_policy_string (ring_name_of (ring_path_of inst))
          = inr (base, policy) ->
        ring_file w (ring_path_of inst) = inr ring ->
        build_dev2parts ring = inl e ->
        check w inst = ([RingLoad (ring_path_of inst)], inl e)).
Proof.
  intros Hc. rewrite (check_accepted w inst Hc). split_and!.
  - intros e Hs. by apply check_body_no_policy.
  - intros base policy e Hs Hr. by eapply check_body_no_ring.
  - intros base policy ring e Hs Hr Hb. by eapply check_body_no_index.
Qed.

(** X4. Only the data directories may be absent: when the listing of the
    device root itself fails, with [ENOENT] as with any other errno, the
    check raises that [OSError] after loading the ring, and reports
    nothing. *)
Theorem device_root_listing_failure w inst base policy ring idx errno :
  config_ok w inst = true ->
  split_policy_string (ring_name_of (ring_path_of inst)) = inr (base, policy) ->
  ring_file w (ring_path_of inst) = inr ring ->
  build_dev2parts ring = inr idx ->
  os_listdir w (device_root_of inst) = inl errno ->
  check w inst
  = ([RingLoad (ring_path_of inst); ListDir (device_root_of inst)],
     inl (OSError errno))
  /\ gauges (check w inst) = [].
Proof.
  intros Hc Hs Hr Hb Hl.
  assert (Hcheck : check w inst
                   = ([RingLoad (ring_path_of inst);
                       ListDir (device_root_of inst)], inl (OSError errno))).
  { rewrite (check_accepted w inst Hc). by eapply check_body_no_listing. }
  split; [done|]. by rewrite Hcheck.
Qed.


End course.

Lemma failures_before_scan_witness :
  config_ok ex_world_hole ex_server = true
  /\ @check ex_lib ex_world_hole ex_server
     = ([RingLoad (ring_path_of ex_server)], inl TypeError).
Proof.
  assert (Hc : config_ok ex_world_hole ex_server = true) by reflexivity.
  split; [exact Hc|].
  destruct (@failures_before_scan ex_lib ex_world_hole ex_server Hc)
    as (_ & _ & Hindex).
  apply (Hindex "object" 0 ex_ring_hole TypeError); reflexivity.
Defined.

Lemma device_root_listing_failure_witness :
  config_ok ex_world_vanished ex_server = true
  /\ @split_policy_string ex_lib (ring_name_of (ring_path_of ex_server))
     = inr ("object", 0)
  /\ ring_file ex_world_vanished (ring_path_of ex_server) = inr ex_ring
  /\ build_dev2parts ex_ring = inr ex_idx
  /\ os_listdir ex_world_vanished (device_root_of ex_server) = inl ENOENT
  /\ @check ex_lib ex_world_vanished ex_server
     = ([RingLoad (ring_path_of ex_server);
         ListDir (device_root_of ex_server)], inl (OSError ENOENT))
  /\ gauges (@check ex_lib ex_world_vanished ex_server) = [].
Proof.
  assert (Hc : config_ok ex_world_vanished ex_server = true)
    by (by vm_compute).
  assert (Hs : @split_policy_string ex_lib
                 (ring_name_of (ring_path_of ex_server)) = inr ("object", 0))
    by (by vm_compute).
  assert (Hr : ring_file ex_world_vanished (ring_path_of ex_server)
               = inr ex_ring) by (by vm_compute).
  assert (Hb : build_dev2parts ex_ring = inr ex_idx) by (by vm_compute).
  assert (Hl : os_listdir ex_world_vanished (device_root_of ex_server)
               = inl ENOENT) by (by vm_compute).
  pose proof (@device_root_listing_failure ex_lib ex_world_vanished ex_server
                "object" 0 ex_ring ex_idx ENOENT Hc Hs Hr Hb Hl) as [H1 H2].
  split_and!; [exact Hc|exact Hs|exact Hr|exact Hb|exact Hl|exact H1|exact H2].
Defined.


(** ** What the counts depend on *)




(** *** Decimal names *)














Section dependence.

Context {lib : SwiftLib}.




(** X10. With no device directory under the device root the check still
    reports at granularity [server], two zeros, and reports nothing at
    granularity [device]. *)
Theorem empty_device_root w inst base policy ring idx :
  loaded w inst base policy ring idx [] ->
  check w inst
  = ([RingLoad (ring_path_of inst); ListDir (device_root_of inst)]
     ++ (if String.eqb (granularity_of inst) "server"
         then [ Gauge "swift_handoffs.primary" 0 (dimensions_of inst);
                Gauge "swift_handoffs.handoffs" 0 (dimensions_of inst) ]
         else []), inr tt).
Proof.
  intros (Hc & Hs & Hr & Hb & Hl).
  rewrite (check_accepted w inst Hc).
  rewrite (check_body_loaded w inst _ base policy ring idx []
             Hs Hr Hb Hl (init_state idx) eq_refl).
  simpl. by destruct (String.eqb _ _).
Qed.

(** X11. Of the instance the check reads the options [devices], [ring] and
    [granularity], each with its default, and what [_set_dimensions] makes
    of it; instances that agree on these make the check do the same. *)
Theorem check_reads_three_options w inst1 inst2 :
  device_root_of inst1 = device_root_of inst2 ->
  ring_path_of inst1 = ring_path_of inst2 ->
  granularity_of inst1 = granularity_of inst2 ->
  (forall dims, _set_dimensions dims inst1 = _set_dimensions dims inst2) ->
  check w inst1 = check w inst2.
Proof.
  intros Hroot Hring Hgran Hdims. unfold check.
  rewrite Hroot, Hring, Hgran.
  destruct (negb _ || negb _); [done|].
  destruct (negb _ || negb _); [done|].
  destruct (negb _); [done|].
  by apply check_body_ext.
Qed.

End dependence.




Lemma empty_device_root_witness :
  @loaded ex_lib ex_world_empty ex_server "object" 0 ex_ring ex_idx []
  /\ @check ex_lib ex_world_empty ex_server
     = ([RingLoad (ring_path_of ex_server);
         ListDir (device_root_of ex_server)]
        ++ (if String.eqb (granularity_of ex_server) "server"
            then [ Gauge "swift_handoffs.primary" 0
                     (@dimensions_of ex_lib ex_server);
                   Gauge "swift_handoffs.handoffs" 0
                     (@dimensions_of ex_lib ex_server) ]
            else []), inr tt).
Proof.
  assert (Hl : @loaded ex_lib ex_world_empty ex_server "object" 0 ex_ring
                 ex_idx []).
  { unfold loaded. split_and!; by vm_compute. }
  split; [exact Hl|].
  exact (@empty_device_root ex_lib ex_world_empty ex_server "object" 0
           ex_ring ex_idx Hl).
Defined.

Lemma check_reads_three_options_witness :
  device_root_of ex_server = device_root_of ex_tagged
  /\ ring_path_of ex_server = ring_path_of ex_tagged
  /\ granularity_of ex_server = granularity_of ex_tagged
  /\ (forall dims,
        @_set_dimensions ex_lib dims ex_server
        = @_set_dimensions ex_lib dims ex_tagged)
  /\ @check ex_lib ex_world ex_server = @check ex_lib ex_world ex_tagged.
Proof.
  assert (H1 : device_root_of ex_server = device_root_of ex_tagged)
    by (by vm_compute).
  assert (H2 : ring_path_of ex_server = ring_path_of ex_tagged)
    by (by vm_compute).
  assert (H3 : granularity_of ex_server = granularity_of ex_tagged)
    by (by vm_compute).
  assert (H4 : forall dims,
            @_set_dimensions ex_lib dims ex_server
            = @_set_dimensions ex_lib dims ex_tagged) by done.
  split_and!; [done|done|done|done|].
  exact (@check_reads_three_options ex_lib ex_world ex_server ex_tagged
           H1 H2 H3 H4).
Defined.

(** ** The two granularities *)







Section granularities.

Context {lib : SwiftLib}.


End granularities.


(** The example node: five primaries and one handoff in all, two and one
    on [sda1], three and none on [sdb1]. *)
Example gauge_values_example :
  gauge_values "swift_handoffs.primary" (trace (ex_check ex_world ex_device))
    = [2; 3]
  /\ gauge_values "swift_handoffs.handoffs"
       (trace (ex_check ex_world ex_device)) = [1; 0]
  /\ gauge_values "swift_handoffs.primary"
       (trace (ex_check ex_world ex_server)) = [5]
  /\ gauge_values "swift_handoffs.handoffs"
       (trace (ex_check ex_world ex_server)) = [1].
Proof. split_and!; by vm_compute. Qed.

(** ** Paths *)

Lemma basename_no_slash s : Py.contains_slash s = false -> Py.basename s = s.
Proof. destruct s as [|c s]; [done|]. intros H. cbn [Py.basename]. by rewrite H. Qed.

Lemma append_cons c (s t : string) :
  String.append (String c s) t = String c (String.append s t).
Proof. done. Qed.

Lemma append_nil_l (t : string) : String.append "" t = t.
Proof. done. Qed.

Lemma contains_slash_app s t :
  Py.contains_slash (String.append s t)
  = Py.contains_slash s || Py.contains_slash t.
Proof.
  induction s as [|c s IH]; [done|].
  rewrite append_cons. cbn [Py.contains_slash]. rewrite IH.
  by rewrite orb_assoc.
Qed.

Lemma basename_after_slash dir s :
  Py.contains_slash s = false ->
  Py.basename (String.append dir (String Py.slash s)) = s.
Proof.
  intros Hs. induction dir as [|c dir IH].
  - rewrite append_nil_l. cbn [Py.basename Py.contains_slash].
    rewrite Ascii.eqb_refl. cbn [orb]. by apply basename_no_slash.
  - rewrite append_cons. cbn [Py.basename].
    assert (Py.contains_slash
              (String c (String.append dir (String Py.slash s))) = true) as ->.
    { cbn [Py.contains_slash]. rewrite contains_slash_app.
      cbn [Py.contains_slash]. rewrite Ascii.eqb_refl.
      by rewrite !orb_true_r. }
    exact IH.
Qed.

Lemma basename_slash_free p : Py.contains_slash (Py.basename p) = false.
Proof.
  induction p as [|c p IH]; [done|].
  cbn [Py.basename].
  destruct (Py.contains_slash (String c p)) eqn:H; [exact IH|exact H].
Qed.

Lemma before_dot_slash_free s :
  Py.contains_slash s = false -> Py.contains_slash (Py.before_dot s) = false.
Proof.
  induction s as [|c s IH]; [done|].
  cbn [Py.contains_slash Py.before_dot]. intros H.
  apply orb_false_iff in H as [Hc Hs].
  destruct (Ascii.eqb c Py.dot); [done|].
  cbn [Py.contains_slash]. by rewrite Hc, IH.
Qed.

Lemma before_dot_dot_free s : contains_dot (Py.before_dot s) = false.
Proof.
  induction s as [|c s IH]; [done|].
  cbn [Py.before_dot]. destruct (Ascii.eqb c Py.dot) eqn:H; [done|].
  cbn [contains_dot]. by rewrite H, IH.
Qed.

Lemma before_dot_no_dot s : contains_dot s = false -> Py.before_dot s = s.
Proof.
  induction s as [|c s IH]; [done|].
  cbn [contains_dot Py.before_dot]. intros H.
  apply orb_false_iff in H as [Hc Hs]. by rewrite Hc, IH.
Qed.

Lemma before_dot_app name rest :
  contains_dot name = false ->
  Py.before_dot (String.append name (String Py.dot rest)) = name.
Proof.
  induction name as [|c name IH].
  - intros _. rewrite append_nil_l. cbn [Py.before_dot].
    by rewrite Ascii.eqb_refl.
  - rewrite append_cons. cbn [contains_dot Py.before_dot]. intros H.
    apply orb_false_iff in H as [Hc Hs]. by rewrite Hc, IH.
Qed.

(** X13. The ring name, which selects the data directory and is reported
    as the [ring] dimension, is the file name of the ring up to its first
    dot: it never holds a slash or a dot, dots in the directory part of the
    path do not matter, and a file name without a dot is the ring name as a
    whole. *)
Theorem ring_name_of_path dir name rest :
  Py.contains_slash name = false ->
  contains_dot name = false ->
  Py.contains_slash rest = false ->
  ring_name_of
    (String.append dir (String Py.slash
       (String.append name (String Py.dot rest)))) = name
  /\ ring_name_of (String.append dir (String Py.slash name)) = name
  /\ ring_name_of (String.append name (String Py.dot rest)) = name
  /\ forall path,
       Py.contains_slash (ring_name_of path) = false
       /\ contains_dot (ring_name_of path) = false.
Proof.
  intros Hname Hdot Hrest.
  assert (Hfile : Py.contains_slash
                    (String.append name (String Py.dot rest)) = false).
  { rewrite contains_slash_app. cbn [Py.contains_slash].
    by rewrite Hname, Hrest. }
  unfold ring_name_of. split_and!.
  - rewrite basename_after_slash by done. by apply before_dot_app.
  - rewrite basename_after_slash by done. by apply before_dot_no_dot.
  - rewrite basename_no_slash by done. by apply before_dot_app.
  - intros path. split.
    + apply before_dot_slash_free, basename_slash_free.
    + apply before_dot_dot_free.
Qed.

Lemma ring_name_of_path_witness :
  Py.contains_slash "object-1" = false
  /\ contains_dot "object-1" = false
  /\ Py.contains_slash "ring.gz" = false
  /\ ring_name_of "/etc/swift.d/object-1.ring.gz" = "object-1".
Proof.
  assert (H1 : Py.contains_slash "object-1" = false) by reflexivity.
  assert (H2 : contains_dot "object-1" = false) by reflexivity.
  assert (H3 : Py.contains_slash "ring.gz" = false) by reflexivity.
  split_and!; [done|done|done|].
  exact (proj1 (ring_name_of_path "/etc/swift.d" "object-1" "ring.gz"
                  H1 H2 H3)).
Defined.

Lemma endswith_slash_app s t :
  t <> "" ->
  Py.endswith_slash (String.append s t) = Py.endswith_slash t.
Proof.
  intros Ht. induction s as [|c s IH]; [done|].
  rewrite append_cons. destruct (String.append s t) as [|c' u] eqn:Hu.
  - destruct s; [|done]. rewrite append_nil_l in Hu. done.
  - change (Py.endswith_slash (String c (String c' u)))
      with (Py.endswith_slash (String c' u)). exact IH.
Qed.

Lemma endswith_slash_contains s :
  Py.endswith_slash s = true -> Py.contains_slash s = true.
Proof.
  induction s as [|c s IH]; [done|].
  destruct s as [|c' s].
  - cbn [Py.endswith_slash Py.contains_slash]. intros ->. done.
  - change (Py.endswith_slash (String c (String c' s)))
      with (Py.endswith_slash (String c' s)).
    intros H. cbn [Py.contains_slash] in *. rewrite (IH H).
    by rewrite orb_true_r.
Qed.

Lemma startswith_slash_contains s :
  Py.contains_slash s = false -> Py.startswith_slash s = false.
Proof.
  destruct s as [|c s]; [done|]. cbn [Py.contains_slash Py.startswith_slash].
  intros H. by apply orb_false_iff in H as [-> _].
Qed.

Lemma append_assoc (s t u : string) :
  String.append (String.append s t) u = String.append s (String.append t u).
Proof.
  induction s as [|c s IH]; [done|]. rewrite !append_cons. by rewrite IH.
Qed.

Lemma append_inv_head (s t u : string) :
  String.append s t = String.append s u -> t = u.
Proof.
  induction s as [|c s IH]; [done|]. rewrite !append_cons.
  intros H. injection H as H. by apply IH.
Qed.

Lemma append_eq_empty (s t : string) : String.append s t = "" -> t = "".
Proof. destruct s; [done|]. rewrite append_cons. done. Qed.

Lemma length_append (s t : string) :
  String.length (String.append s t) = String.length s + String.length t.
Proof.
  induction s as [|c s IH]; [done|].
  rewrite append_cons. cbn [String.length]. by rewrite IH.
Qed.

(** Up to the first slash, two strings that agree agree. *)
Lemma before_slash_inj d1 : forall d2 t1 t2,
  Py.contains_slash d1 = false -> Py.contains_slash d2 = false ->
  String.append d1 (String Py.slash t1) = String.append d2 (String Py.slash t2) ->
  d1 = d2.
Proof.
  induction d1 as [|c1 d1 IH]; intros [|c2 d2] t1 t2 H1 H2 Heq;
    rewrite ?append_cons, ?append_nil_l in Heq;
    cbn [Py.contains_slash] in *.
  - done.
  - injection Heq as <- _. by rewrite Ascii.eqb_refl in H2.
  - injection Heq as -> _. by rewrite Ascii.eqb_refl in H1.
  - injection Heq as -> Heq.
    apply orb_false_iff in H1 as [_ H1]. apply orb_false_iff in H2 as [_ H2].
    f_equal. by eapply IH.
Qed.

Lemma entry_name_spec d :
  entry_name d = true <-> d <> "" /\ Py.contains_slash d = false.
Proof.
  unfold entry_name. rewrite andb_true_iff, !negb_true_iff.
  split; intros [H1 H2]; (split; [|done]).
  - intros ->. done.
  - apply String.eqb_neq. done.
Qed.

(** The data directory of an entry of the device root: the root, a slash
    unless the root ends in one, the entry, a slash, the data directory. *)
Lemma join3_entry root datadir :
  Py.startswith_slash datadir = false ->
  exists prefix,
    (prefix = root \/ prefix = String.append root "/")
    /\ forall d', entry_name d' = true ->
         Py.join3 root d' datadir
         = String.append prefix
             (String.append d' (String Py.slash datadir)).
Proof.
  intros Hdd.
  exists (if String.eqb root "" || Py.endswith_slash root then root
          else String.append root "/").
  split; [destruct (String.eqb root "" || Py.endswith_slash root); auto|].
  intros d' Hd'. apply entry_name_spec in Hd' as [Hne Hns].
  unfold Py.join3, Py.join2 at 2.
  rewrite (startswith_slash_contains d' Hns).
  set (prefix := if String.eqb root "" || Py.endswith_slash root then root
                 else String.append root "/").
  assert (Hj : (if String.eqb root "" || Py.endswith_slash root
                then String.append root d'
                else String.append root (String.append "/" d'))
               = String.append prefix d').
  { subst prefix. destruct (String.eqb root "" || Py.endswith_slash root);
      [done|]. by rewrite append_assoc. }
  rewrite Hj. unfold Py.join2. rewrite Hdd.
  assert (String.eqb (String.append prefix d') "" = false) as ->.
  { apply String.eqb_neq. intros H. by apply append_eq_empty in H. }
  assert (Py.endswith_slash (String.append prefix d') = false) as ->.
  { rewrite endswith_slash_app by done.
    destruct (Py.endswith_slash d') eqn:H; [|done].
    apply endswith_slash_contains in H. congruence. }
  cbn [orb]. by rewrite append_assoc.
Qed.

(** X14. Each device directory has a data directory of its own: for the
    names a directory listing returns (not empty, without a slash) and a
    data directory name that is not an absolute path, different device
    directories are scanned at different paths, none of them the device
    root, so that no directory is listed twice in one check; an absolute
    data directory name would make every device directory scan that one
    path. *)
Theorem data_directories_distinct root datadir dirs :
  Forall (fun d => entry_name d = true) dirs ->
  NoDup dirs ->
  (Py.startswith_slash datadir = false ->
     NoDup (ListDir root :: listdir_events root datadir dirs))
  /\ (Py.startswith_slash datadir = true ->
      forall d, Py.join3 root d datadir = datadir).
Proof.
  intros Hnames Hnd. split.
  - intros Hdd.
    assert (Hinj : forall d1 d2, d1 ∈ dirs -> d2 ∈ dirs ->
              Py.join3 root d1 datadir = Py.join3 root d2 datadir -> d1 = d2).
    { intros d1 d2 H1 H2 Heq. rewrite Forall_forall in Hnames.
      destruct (join3_entry root datadir Hdd) as (prefix & _ & Hjoin).
      rewrite (Hjoin d1 (Hnames d1 H1)), (Hjoin d2 (Hnames d2 H2)) in Heq.
      apply append_inv_head in Heq.
      pose proof (Hnames d1 H1) as Hn1. pose proof (Hnames d2 H2) as Hn2.
      apply entry_name_spec in Hn1 as [_ Hn1].
      apply entry_name_spec in Hn2 as [_ Hn2].
      by eapply before_slash_inj. }
    apply NoDup_cons. split.
    + unfold listdir_events. rewrite list_elem_of_fmap.
      intros (d & Heq & Hd). rewrite Forall_forall in Hnames.
      destruct (join3_entry root datadir Hdd) as (prefix & Hprefix & Hjoin).
      injection Heq as Heq. rewrite (Hjoin d (Hnames d Hd)) in Heq.
      apply (f_equal String.length) in Heq.
      rewrite !length_append in Heq. cbn [String.length] in Heq.
      destruct Hprefix as [->| ->]; [|rewrite length_append in Heq]; lia.
    + unfold listdir_events. apply NoDup_fmap_2_strong; [|done].
      intros d1 d2 H1 H2 Heq. injection Heq as Heq. by apply Hinj.
  - intros Hdd d. unfold Py.join3, Py.join2 at 1. by rewrite Hdd.
Qed.

Lemma data_directories_distinct_witness :
  Forall (fun d => entry_name d = true) ["sda1"; "sdb1"]
  /\ NoDup ["sda1"; "sdb1"]
  /\ NoDup (ListDir "/srv/node"
            :: listdir_events "/srv/node" "objects" ["sda1"; "sdb1"]).
Proof.
  assert (Hnames : Forall (fun d => entry_name d = true) ["sda1"; "sdb1"]).
  { by repeat constructor. }
  assert (Hnd : NoDup ["sda1"; "sdb1"]).
  { apply (bool_decide_unpack _). by vm_compute. }
  split_and!; [done|done|].
  apply (proj1 (data_directories_distinct "/srv/node" "objects"
                  ["sda1"; "sdb1"] Hnames Hnd)).
  reflexivity.
Defined.

(** ** Primaries and the ring *)




(** With names that are not canonical the count of primaries can exceed
    what the ring assigns: four names of partition 1 are four primaries on
    a device with three primary partitions. *)
Example primaries_beyond_ring :
  size (dd_value ∅ "sda1" ex_idx) = 3
  /\ gauges (ex_check ex_world_ones ex_server)
     = [ Gauge "swift_handoffs.primary" 4 (@dimensions_of ex_lib ex_server);
         Gauge "swift_handoffs.handoffs" 0 (@dimensions_of ex_lib ex_server) ].
Proof. split; by vm_compute. Qed.
